(** * Verification of make_feed.py (create-pg-rss)

    A shallow embedding of the feed generator [src/make_feed.py]:
    the BeautifulSoup tree it scrapes, [gen_entries], [extract_info]
    (with the [datetime.strptime] parser it relies on), the feed
    assembly of [add_feed_item], and [main] as a run over an explicit
    file-system state.

    Python strings are modelled as sequences of the code points
    0..255 (Latin-1), one [ascii] value per code point. *)

From Stdlib Require Import String Ascii List ZArith Bool Lia.
Import ListNotations.
Open Scope string_scope.
#[local] Set Warnings "-register-all".

(** ** Python values and exceptions *)

(** The exceptions the code can raise: [AttributeError] (a method on
    [None]), [TypeError] (an [attrs] validator), [ValueError]
    ([strptime], or lxml refusing a string that is not XML-compatible)
    and [OSError] (alias [IOError]: [feed/pg.rss] cannot be opened). *)
Inductive exn : Type :=
| AttributeError
| TypeError
| ValueError
| OSError.

(** A Python computation that returns a value or raises. *)
Inductive result (A : Type) : Type :=
| Ok (a : A)
| Err (e : exn).
Arguments Ok {A} a.
Arguments Err {A} e.

Definition bind {A B} (m : result A) (k : A -> result B) : result B :=
  match m with Ok a => k a | Err e => Err e end.

Notation "x <- m ;; k" := (bind m (fun x => k))
  (at level 61, m at next level, right associativity).

(** Attribute access on an optional value: [None.x] raises
    [AttributeError]. *)
Definition deref {A} (o : option A) : result A :=
  match o with Some a => Ok a | None => Err AttributeError end.

(** ** The BeautifulSoup tree *)

(** A parsed element: tag name (lower-cased by [html.parser]), its
    attributes other than [class], the values of its multi-valued
    [class] attribute, and its children; or a text node. *)
Inductive node : Type :=
| Elem (name : string) (attrs : list (string * string))
       (classes : list string) (children : list node)
| Text (s : string).

(** [Tag.descendants]: every node below [n], in document order
    (pre-order), [n] itself excluded. *)
Fixpoint descendants (n : node) : list node :=
  match n with
  | Text _ => []
  | Elem _ _ _ ch =>
      (fix go (l : list node) : list node :=
         match l with
         | [] => []
         | c :: r => c :: descendants c ++ go r
         end) ch
  end.

(** One of the element's class values is [cls]. *)
Definition has_class (cls : string) (n : node) : bool :=
  match n with
  | Elem _ _ cs _ => existsb (String.eqb cls) cs
  | Text _ => false
  end.

(** [find_all(name)] test: an element with that tag name. *)
Definition has_name (name : string) (n : node) : bool :=
  match n with
  | Elem t _ _ _ => String.eqb t name
  | Text _ => false
  end.

(** [find_all(name, class_=cls)] test: the tag name matches and [cls]
    is one of the element's class values. *)
Definition matches (name cls : string) (n : node) : bool :=
  has_name name n && has_class cls n.

(** [tag(name)], i.e. [tag.find_all(name)]. *)
Definition find_all_name (name : string) (n : node) : list node :=
  filter (has_name name) (descendants n).

(** [tag.find(name, class_=cls)]: the first matching descendant, or
    [None]. *)
Definition find (name cls : string) (n : node) : option node :=
  match filter (matches name cls) (descendants n) with
  | [] => None
  | x :: _ => Some x
  end.

(** [tag.get(key)]: the attribute value, [None] when absent. *)
Definition get (key : string) (n : node) : option string :=
  match n with
  | Elem _ attrs _ _ =>
      match List.find (fun kv => String.eqb (fst kv) key) attrs with
      | Some kv => Some (snd kv)
      | None => None
      end
  | Text _ => None
  end.

(** [tag.string]: the single text child, looked up recursively through
    a single element child; [None] when the element has no child or
    more than one. *)
Fixpoint tag_string (n : node) : option string :=
  match n with
  | Text s => Some s
  | Elem _ _ _ [c] => tag_string c
  | Elem _ _ _ _ => None
  end.

(** ** [str.strip] and [datetime.strptime(_, '%m.%d.%Y')] *)

Definition code (c : ascii) : nat := nat_of_ascii c.

(** [str.isspace] on the code points 0..255: \t \n \v \f \r, the
    separators 0x1c-0x1f, the space, NEL (0x85) and the no-break space
    (0xa0). *)
Definition is_space (c : ascii) : bool :=
  ((9 <=? code c) && (code c <=? 13))%nat || ((28 <=? code c) && (code c <=? 32))%nat
  || (code c =? 133)%nat || (code c =? 160)%nat.

Fixpoint lstrip (l : list ascii) : list ascii :=
  match l with
  | c :: r => if is_space c then lstrip r else l
  | [] => []
  end.

Definition strip (s : string) : string :=
  string_of_list_ascii (rev (lstrip (rev (lstrip (list_ascii_of_string s))))).

(** A backtracking regular-expression matcher, as [re.match] runs it:
    every way to match a prefix, in the order the engine tries them. *)
Definition parser := list ascii -> list (list ascii * list ascii).

Definition chr (p : ascii -> bool) : parser :=
  fun s => match s with
           | c :: r => if p c then [([c], r)] else []
           | [] => []
           end.

Definition re_cat (p q : parser) : parser :=
  fun s => flat_map (fun mr => map (fun mr' => (app (fst mr) (fst mr'), snd mr'))
                                   (q (snd mr))) (p s).

Definition alt (p q : parser) : parser := fun s => app (p s) (q s).

Definition range (lo hi : ascii) (c : ascii) : bool :=
  (code lo <=? code c)%nat && (code c <=? code hi)%nat.

Definition lit (a : ascii) : parser := chr (fun c => Ascii.eqb c a).

(** [\d]: a Unicode decimal digit (category Nd); among the code points
    0..255 these are exactly '0'..'9'. *)
Definition re_digit : parser := chr (range "0" "9").

(** [(?P<m>1[0-2]|0[1-9]|[1-9])] *)
Definition re_m : parser :=
  alt (re_cat (lit "1") (chr (range "0" "2")))
  (alt (re_cat (lit "0") (chr (range "1" "9")))
       (chr (range "1" "9"))).

(** [(?P<d>3[0-1]|[1-2]\d|0[1-9]|[1-9]| [1-9])] *)
Definition re_d : parser :=
  alt (re_cat (lit "3") (chr (range "0" "1")))
  (alt (re_cat (chr (range "1" "2")) re_digit)
  (alt (re_cat (lit "0") (chr (range "1" "9")))
  (alt (chr (range "1" "9"))
       (re_cat (lit " ") (chr (range "1" "9")))))).

(** [(?P<Y>\d\d\d\d)] *)
Definition re_Y : parser := re_cat re_digit (re_cat re_digit (re_cat re_digit re_digit)).

(** The compiled format ['%m.%d.%Y'] (the dots escaped): the three
    groups and the unmatched rest, for every match in engine order. *)
Definition re_mdY (s : list ascii)
  : list (list ascii * list ascii * list ascii * list ascii) :=
  flat_map (fun m =>
  flat_map (fun p1 =>
  flat_map (fun d =>
  flat_map (fun p2 =>
  map (fun y => (fst m, fst d, fst y, snd y))
      (re_Y (snd p2)))
      (lit "." (snd d)))
      (re_d (snd p1)))
      (lit "." (snd m)))
      (re_m s).

Local Open Scope Z_scope.

(** [int(group)]: decimal value, a leading blank ignored. *)
Definition int_of (l : list ascii) : Z :=
  fold_left (fun acc c => if is_space c then acc
                          else (10 * acc + Z.of_nat (code c - 48)%nat)%Z) l 0%Z.

Definition is_leap (y : Z) : bool :=
  (Z.eqb (y mod 4) 0 && negb (Z.eqb (y mod 100) 0)) || Z.eqb (y mod 400) 0.

Definition days_in_month (y m : Z) : Z :=
  match m with
  | 2%Z => if is_leap y then 29 else 28
  | 4%Z | 6%Z | 9%Z | 11%Z => 30
  | _ => 31
  end.

(** A [datetime] at second precision; [dt_tz] is the UTC offset in
    minutes, [None] for a naive datetime. *)
Record datetime : Type := mkdatetime {
  dt_year : Z; dt_month : Z; dt_day : Z;
  dt_hour : Z; dt_minute : Z; dt_second : Z;
  dt_tz : option Z
}.

(** The [datetime] constructor's range check. *)
Definition mk_datetime (y m d : Z) : result datetime :=
  if (1 <=? y) && (y <=? 9999) && (1 <=? m) && (m <=? 12)
     && (1 <=? d) && (d <=? days_in_month y m)
  then Ok (mkdatetime y m d 0 0 0 None)
  else Err ValueError.

(** [datetime.strptime(s, '%m.%d.%Y')]: [re.match], then the
    "unconverted data remains" check, then the constructor. *)
Definition strptime_mdY (s : string) : result datetime :=
  match re_mdY (list_ascii_of_string s) with
  | [] => Err ValueError
  | (m, d, y, rest) :: _ =>
      match rest with
      | _ :: _ => Err ValueError
      | [] => mk_datetime (int_of y) (int_of m) (int_of d)
      end
  end.

(** [.replace(tzinfo=timezone.utc)] *)
Definition replace_utc (t : datetime) : datetime :=
  {| dt_year := dt_year t; dt_month := dt_month t; dt_day := dt_day t;
     dt_hour := dt_hour t; dt_minute := dt_minute t;
     dt_second := dt_second t; dt_tz := Some 0%Z |}.

(** Lines 70-71 of [extract_info]: the published marker's text,
    stripped, parsed, made UTC. *)
Definition parse_published (date_str : string) : result datetime :=
  d <- strptime_mdY (strip date_str) ;; Ok (replace_utc d).


(** ** [Info] and [extract_info] *)

(** [@attr.s class Info]: five fields, each validated by
    [instance_of]. *)
Record Info : Type := mkInfo {
  info_id : string;
  info_title : string;
  info_description : string;
  info_enc : string;
  info_date : datetime
}.

(** [attr.validators.instance_of(str)] on a value that is a [str] or
    [None]. *)
Definition instance_of_str (v : option string) : result string :=
  match v with Some s => Ok s | None => Err TypeError end.

(** [Info(id=..., title=..., description=..., enc=..., date=...)]. *)
Definition Info_new (id title description enc : option string)
  (date : datetime) : result Info :=
  i <- instance_of_str id ;;
  t <- instance_of_str title ;;
  d <- instance_of_str description ;;
  e <- instance_of_str enc ;;
  Ok (mkInfo i t d e date).

(** [extract_info(li)], line by line. *)
Definition extract_info (li : node) : result Info :=
  a <- deref (find "a" "ep-item" li) ;;
  let id := get "href" a in
  h <- deref (find "h3" "ep-row-title" li) ;;
  let title := tag_string h in
  p <- deref (find "p" "ep-row-desc" li) ;;
  let description := tag_string p in
  sp <- deref (find "span" "ep-published" li) ;;
  date_str <- deref (tag_string sp) ;;
  date <- parse_published date_str ;;
  b <- deref (find "a" "play-btn" li) ;;
  let enc := get "data-mp3" b in
  Info_new id title description enc date.

(** ** The feed *)

Definition BASE_URL : string := "https://podcast.app".
Definition PG_URL : string :=
  "https://podcast.app/paul-graham-essays-audio-p1755465/?limit=250&offset=0".

Record link : Type := mklink { link_href : string; link_rel : string }.

(** A [FeedEntry] as [add_feed_item] fills it. *)
Record FeedEntry : Type := mkentry {
  fe_id : string;
  fe_title : string;
  fe_link : list link;
  fe_author : list string;
  fe_content : string;
  fe_updated : datetime;
  fe_published : datetime
}.

(** A [FeedGenerator]: the feed-level data and the entry list. *)
Record FeedGenerator : Type := mkfg {
  fg_id : string;
  fg_title : string;
  fg_link : list link;
  fg_logo : string;
  fg_language : string;
  fg_description : string;
  fg_docs : string;
  fg_author : list string;
  fg_entries : list FeedEntry
}.

Definition create_base_feed : FeedGenerator :=
  {| fg_id := PG_URL;
     fg_title := "Paul Graham Essays (Audio)";
     fg_link := [mklink "https://podcast.app/paul-graham-essays-audio-p1755465/" "self"];
     fg_logo := "https://podcast-api-images.s3.amazonaws.com/podcast_logo_1755465_300x300.jpg";
     fg_language := "en";
     fg_description := "PG Podcast";
     fg_docs := "http://www.rssboard.org/rss-specification";
     fg_author := [];
     fg_entries := [] |}.

(** The entry [add_feed_item] fills in; [now] is the value of
    [arrow.utcnow()] at that call. *)
Definition make_entry (fg : FeedGenerator) (info : Info) (now : datetime)
  : FeedEntry :=
  {| fe_id := append BASE_URL (info_id info);
     fe_title := info_title info;
     fe_link := [mklink (info_enc info) "alternate"];
     fe_author := fg_author fg;
     fe_content := info_description info;
     fe_updated := now;
     fe_published := info_date info |}.

(** [add_feed_item(fg, info)]: [fg.add_entry(order="append")] puts the
    new entry last. *)
Definition add_feed_item (fg : FeedGenerator) (info : Info) (now : datetime)
  : FeedGenerator :=
  {| fg_id := fg_id fg; fg_title := fg_title fg; fg_link := fg_link fg;
     fg_logo := fg_logo fg; fg_language := fg_language fg;
     fg_description := fg_description fg; fg_docs := fg_docs fg;
     fg_author := fg_author fg;
     fg_entries := app (fg_entries fg) [make_entry fg info now] |}.

(** ** The HTTP response and [resp_report] *)

Record Response : Type := mkresp {
  status_code : Z;
  reason : string;
  text : string
}.

(** [Response.ok] of requests: [raise_for_status] raises exactly for
    [400 <= status_code < 600]. *)
Definition resp_ok (r : Response) : bool :=
  negb ((400 <=? status_code r) && (status_code r <? 600)).

Fixpoint digits_aux (fuel : nat) (n : Z) (acc : string) : string :=
  match fuel with
  | O => acc
  | S f =>
      let acc' := String (ascii_of_nat (48 + Z.to_nat (n mod 10))) acc in
      if n <? 10 then acc' else digits_aux f (n / 10) acc'
  end.

(** [str(n)] for an integer. *)
Definition str_of_Z (z : Z) : string :=
  if z <? 0 then String "-" (digits_aux (S (Z.to_nat (Z.log2 (- z)))) (- z) "")
  else digits_aux (S (Z.to_nat (Z.log2 z))) z "".

Definition resp_report (r : Response) : string :=
  append (str_of_Z (status_code r)) (append " " (reason r)).

(** ** [gen_entries] and [main] *)

Inductive level : Type := INFO | CRITICAL.

(** The outcome of [main]: it returns [None] or an exit code, or an
    exception escapes it. [fs] is the content of [feed/pg.rss]
    ([None]: no such file). *)
Record run : Type := mkrun {
  outcome : result (option Z);
  fs : option string;
  logs : list (level * string)
}.

(** [sys.exit(main())]: [None] is status 0, an uncaught exception is
    status 1. *)
Definition exit_status (o : result (option Z)) : Z :=
  match o with
  | Ok None => 0
  | Ok (Some n) => n
  | Err _ => 1
  end.

(** The condition of [gen_entries]: [bs4.Tag] objects are always truthy,
    so a row is kept when [find] returns a tag. *)
Definition is_entry_row (li : node) : bool :=
  match find "span" "ep-published" li with
  | Some _ => true
  | None => false
  end.

Section Pipeline.

(** [BSoup(text, "html.parser")]: the document tree of a page. *)
Variable parse_html : string -> node.
(** [fg.rss_file(..., pretty=True)]: the bytes written for a feed. *)
Variable rss_str : FeedGenerator -> string.
(** The exception [fg.rss_file] raises for a feed, [None] when it
    writes the file: lxml's [ValueError] while the XML tree is built
    (a string with a character XML does not allow, such as \x0b), or
    [OSError] when [feed/pg.rss] cannot be opened. Both come before
    the file is opened for writing, so the old file stays. *)
Variable rss_error : FeedGenerator -> option exn.
(** [arrow.utcnow()] at its [k]-th call in the run. *)
Variable clock : nat -> datetime.

(** [gen_entries(resp)]; see [is_entry_row] for its filter. *)
Definition gen_entries (resp : Response) : list node :=
  filter is_entry_row (find_all_name "tr" (parse_html (text resp))).

(** The list comprehension of [main]: for each row in turn, extract and
    add; the first exception ends it. [k] counts the calls made so far. *)
Fixpoint add_items (fg : FeedGenerator) (k : nat) (rows : list node)
  : result FeedGenerator :=
  match rows with
  | [] => Ok fg
  | li :: rest =>
      info <- extract_info li ;;
      add_items (add_feed_item fg info (clock k)) (S k) rest
  end.

(** [main()]. [write_feed] either raises (see [rss_error]) or replaces
    the whole file. *)
Definition main (resp_pg : Response) (fs0 : option string) : run :=
  if negb (resp_ok resp_pg) then
    mkrun (Ok (Some 1)) fs0
      [(CRITICAL, append "PG pages download failed: " (resp_report resp_pg))]
  else
    let logs1 := [(INFO, "Download pages retrieved.");
                  (INFO, "Base feed generator created")] in
    match add_items create_base_feed 0 (gen_entries resp_pg) with
    | Err e => mkrun (Err e) fs0 logs1
    | Ok fg =>
        let logs2 := app logs1 [(INFO, "Articles added to feed")] in
        match rss_error fg with
        | Some e => mkrun (Err e) fs0 logs2
        | None => mkrun (Ok None) (Some (rss_str fg))
                    (app logs2 [(INFO, "Feed written to disk")])
        end
    end.

End Pipeline.

(** The feed-level part of a [FeedGenerator]: everything but the
    entries. *)
Definition channel (fg : FeedGenerator)
  : string * string * list link * string * string * string * string * list string :=
  (fg_id fg, fg_title fg, fg_link fg, fg_logo fg, fg_language fg,
   fg_description fg, fg_docs fg, fg_author fg).

(** An entry without its [updated] time. *)
Definition entry_sans_updated (e : FeedEntry)
  : string * string * list link * list string * string * datetime :=
  (fe_id e, fe_title e, fe_link e, fe_author e, fe_content e, fe_published e).

(** The feed [main]'s loop assembles from the records [infos]: the
    feed-level data of [create_base_feed] and one entry per record, the
    [k]-th stamped with the [k]-th clock reading. *)
Definition assembled_feed (clock : nat -> datetime) (infos : list Info)
  : FeedGenerator :=
  {| fg_id := fg_id create_base_feed; fg_title := fg_title create_base_feed;
     fg_link := fg_link create_base_feed; fg_logo := fg_logo create_base_feed;
     fg_language := fg_language create_base_feed;
     fg_description := fg_description create_base_feed;
     fg_docs := fg_docs create_base_feed; fg_author := fg_author create_base_feed;
     fg_entries := map (fun p => make_entry create_base_feed (snd p) (clock (fst p)))
                       (combine (seq 0 (length infos)) infos) |}.

(** A date written zero-padded as [MM.DD.YYYY], the way the published
    markers of the scraped page show it (a helper for stating
    properties; the program itself never formats dates). *)
Definition digit_of (k : Z) : ascii := ascii_of_nat (48 + Z.to_nat k).

Definition format_mdY (y m d : Z) : string :=
  string_of_list_ascii
    [digit_of (m / 10); digit_of (m mod 10); "."%char;
     digit_of (d / 10); digit_of (d mod 10); "."%char;
     digit_of (y / 10 / 10 / 10); digit_of (y / 10 / 10 mod 10);
     digit_of (y / 10 mod 10); digit_of (y mod 10)].

(** ** Sample pages *)

Definition epoch : datetime := mkdatetime 1970 1 1 0 0 0 (Some 0).

(** An episode row with a description paragraph [desc], a published
    marker text [date] and, when [play], a play button. *)
Definition episode_row (href title : string) (desc : list node) (date : string)
  (play : bool) : node :=
  Elem "tr" [] []
    [Elem "td" [] []
       [Elem "a" [("href", href)] ["ep-item"]
          [Elem "h3" [] ["ep-row-title"] [Text title]]];
     Elem "td" [] []
       [Elem "p" [] ["ep-row-desc"] desc;
        Elem "span" [] ["ep-published"] [Text date]];
     Elem "td" [] []
       (if play then [Elem "a" [("data-mp3", append "https://cdn.example" (append href ".mp3"))]
                       ["btn"; "play-btn"] []]
        else [])].

Definition header_row : node :=
  Elem "tr" [] [] [Elem "th" [] [] [Text "Episode"]; Elem "th" [] [] [Text "Date"]].

Definition row_A : node :=
  episode_row "/e/1" "How to Do Great Work" [Text "An essay."] " 01.02.2023 " true.
Definition row_B : node :=
  episode_row "/e/2" "Superlinear Returns" [Text "Another."] "10.05.2023" false.
Definition row_C : node :=
  episode_row "/e/3" "The Best Essay" [Text "A third."] "01.01.2024" true.

(** The item anchor written as a [div]: class right, tag wrong. *)
Definition row_div_item : node :=
  Elem "tr" [] []
    [Elem "div" [("href", "/e/4")] ["ep-item"] [Elem "h3" [] ["ep-row-title"] [Text "T"]];
     Elem "p" [] ["ep-row-desc"] [Text "D"];
     Elem "span" [] ["ep-published"] [Text "01.02.2023"];
     Elem "a" [("data-mp3", "https://cdn.example/e/4.mp3")] ["play-btn"] []].

(** A row whose cell holds a table with [row_A]. *)
Definition nested_page : node :=
  Elem "[document]" [] []
    [Elem "table" [] []
       [Elem "tr" [] [] [Elem "td" [] [] [Elem "table" [] [] [row_A]]]]].

Definition page (rows : list node) : node :=
  Elem "[document]" [] [] [Elem "table" [] [] (header_row :: rows)].

Definition ok_resp : Response := mkresp 200 "OK" "<html>...</html>".

Definition info_A : Info :=
  mkInfo "/e/1" "How to Do Great Work" "An essay." "https://cdn.example/e/1.mp3"
    (mkdatetime 2023 1 2 0 0 0 (Some 0)).
Definition info_C : Info :=
  mkInfo "/e/3" "The Best Essay" "A third." "https://cdn.example/e/3.mp3"
    (mkdatetime 2024 1 1 0 0 0 (Some 0)).

Example strptime_03_15 :
  parse_published "03.15.2024" = Ok (mkdatetime 2024 3 15 0 0 0 (Some 0%Z)).
Proof. reflexivity. Qed.
Example strptime_space : parse_published "03. 5.2024" = Ok (mkdatetime 2024 3 5 0 0 0 (Some 0%Z)).
Proof. reflexivity. Qed.
Example strptime_leap : parse_published "02.29.2023" = Err ValueError.
Proof. reflexivity. Qed.
Example strptime_iso : parse_published "2024-03-15" = Err ValueError.
Proof. reflexivity. Qed.
Example strptime_110 : parse_published "  1.10.2024 " = Ok (mkdatetime 2024 1 10 0 0 0 (Some 0%Z)).
Proof. reflexivity. Qed.

(** ** C1: the fetch status check *)

Lemma resp_ok_false_iff (r : Response) :
  resp_ok r = false <-> 400 <= status_code r < 600.
Proof.
  unfold resp_ok.
  destruct (400 <=? status_code r) eqn:E1; destruct (status_code r <? 600) eqn:E2;
    simpl; split; intro H; try discriminate;
    rewrite ?Z.leb_le, ?Z.leb_gt, ?Z.ltb_lt, ?Z.ltb_ge in *; lia.
Qed.

(** Claim C1 (amended). The run treats the fetch as failed exactly when
    the status code lies in 400..599 (requests' [Response.ok]); then
    [main] logs one critical line "PG pages download failed: <code>
    <reason>", returns 1 and leaves the feed file as it was. Any other
    status, 1xx and 3xx included, goes on to parsing. *)
Theorem main_fetch_status (parse_html : string -> node)
  (rss_str : FeedGenerator -> string) (rss_error : FeedGenerator -> option exn)
  (clock : nat -> datetime)
  (r : Response) (fs0 : option string) :
  400 <= status_code r < 600 <->
  main parse_html rss_str rss_error clock r fs0
  = mkrun (Ok (Some 1)) fs0
      [(CRITICAL, append "PG pages download failed: "
                    (append (str_of_Z (status_code r)) (append " " (reason r))))].
Proof.
  rewrite <- resp_ok_false_iff. unfold main.
  destruct (resp_ok r); simpl; split; intro H; try discriminate; try reflexivity.
  destruct (add_items _ _ _ _) as [fg|e]; [destruct (rss_error fg)|]; discriminate.
Qed.

(** Claim C1 as stated fails: a 304 response is not 2xx, yet the run
    goes on, exits with status 0 and writes the feed file. *)
Lemma main_304_counterexample :
  resp_ok (mkresp 304 "Not Modified" "") = true /\
  exit_status (outcome (main (fun _ => Text "") (fun _ => "<rss/>") (fun _ => None)
                          (fun _ => epoch) (mkresp 304 "Not Modified" "") None)) = 0 /\
  fs (main (fun _ => Text "") (fun _ => "<rss/>") (fun _ => None)
        (fun _ => epoch) (mkresp 304 "Not Modified" "") None) = Some "<rss/>".
Proof. vm_compute. repeat split. Qed.

Example main_503_report :
  main (fun _ => Text "") (fun _ => "<rss/>") (fun _ => None) (fun _ => epoch)
       (mkresp 503 "Service Unavailable" "") (Some "old")
  = mkrun (Ok (Some 1)) (Some "old")
      [(CRITICAL, "PG pages download failed: 503 Service Unavailable")].
Proof. vm_compute. reflexivity. Qed.

(** ** C3: extraction is all or nothing *)

Lemma bind_ok {A B} (m : result A) (k : A -> result B) (b : B) :
  bind m k = Ok b <-> exists a, m = Ok a /\ k a = Ok b.
Proof.
  destruct m as [a|e]; simpl; split.
  - eauto.
  - intros (? & H & ?). injection H as <-. assumption.
  - discriminate.
  - intros (? & H & _). discriminate.
Qed.

Lemma deref_ok {A} (o : option A) (a : A) : deref o = Ok a <-> o = Some a.
Proof.
  destruct o; simpl; split; intro H; try discriminate; congruence.
Qed.

Lemma instance_of_str_ok (v : option string) (s : string) :
  instance_of_str v = Ok s <-> v = Some s.
Proof.
  destruct v; simpl; split; intro H; try discriminate; congruence.
Qed.

Lemma extract_info_ok_iff (li : node) (info : Info) :
  extract_info li = Ok info <->
  exists a h p sp date_str b,
    find "a" "ep-item" li = Some a /\ get "href" a = Some (info_id info) /\
    find "h3" "ep-row-title" li = Some h /\ tag_string h = Some (info_title info) /\
    find "p" "ep-row-desc" li = Some p /\
    tag_string p = Some (info_description info) /\
    find "span" "ep-published" li = Some sp /\ tag_string sp = Some date_str /\
    parse_published date_str = Ok (info_date info) /\
    find "a" "play-btn" li = Some b /\ get "data-mp3" b = Some (info_enc info).
Proof.
  split.
  - intro H. unfold extract_info, Info_new in H.
    repeat (apply bind_ok in H; destruct H as (? & ? & H); cbv beta zeta in H).
    injection H as <-. simpl.
    repeat match goal with
           | H : deref _ = Ok _ |- _ => apply deref_ok in H
           | H : instance_of_str _ = Ok _ |- _ => apply instance_of_str_ok in H
           end.
    do 6 eexists; repeat split; eassumption.
  - destruct info as [i t d e dt]; simpl.
    intros (a & h & p & sp & ds & b & Ha & Hi & Hh & Ht & Hp & Hd & Hs & Hds
            & Hdt & Hb & He).
    unfold extract_info, deref, Info_new, instance_of_str, bind.
    rewrite Ha, Hi, Hh, Ht, Hp, Hd, Hs, Hds, Hdt, Hb, He. reflexivity.
Qed.

(** Claim C3. [extract_info] yields a record exactly when every lookup
    succeeds: the item anchor with its [href], the title heading and
    the description paragraph with their text, the published marker
    with a text that parses as a date, and the play button with its
    [data-mp3]; all five fields then come from those lookups. When any
    of them is missing, or a text is missing or does not parse, it
    raises and produces no record. *)
Theorem extract_info_all_or_nothing (li : node) :
  (forall info : Info,
     extract_info li = Ok info <->
     exists a h p sp date_str b,
       find "a" "ep-item" li = Some a /\ get "href" a = Some (info_id info) /\
       find "h3" "ep-row-title" li = Some h /\ tag_string h = Some (info_title info) /\
       find "p" "ep-row-desc" li = Some p /\
       tag_string p = Some (info_description info) /\
       find "span" "ep-published" li = Some sp /\ tag_string sp = Some date_str /\
       parse_published date_str = Ok (info_date info) /\
       find "a" "play-btn" li = Some b /\ get "data-mp3" b = Some (info_enc info)) /\
  ((find "a" "ep-item" li = None
    \/ (exists a, find "a" "ep-item" li = Some a /\ get "href" a = None)
    \/ find "h3" "ep-row-title" li = None
    \/ (exists h, find "h3" "ep-row-title" li = Some h /\ tag_string h = None)
    \/ find "p" "ep-row-desc" li = None
    \/ (exists p, find "p" "ep-row-desc" li = Some p /\ tag_string p = None)
    \/ find "span" "ep-published" li = None
    \/ (exists sp, find "span" "ep-published" li = Some sp /\ tag_string sp = None)
    \/ (exists sp s e, find "span" "ep-published" li = Some sp /\
                       tag_string sp = Some s /\ parse_published s = Err e)
    \/ find "a" "play-btn" li = None
    \/ (exists b, find "a" "play-btn" li = Some b /\ get "data-mp3" b = None)) ->
   exists e, extract_info li = Err e).
Proof.
  split; [exact (extract_info_ok_iff li)|].
  intro Hmiss. destruct (extract_info li) as [info|e] eqn:Ex; [|eauto].
  exfalso. apply extract_info_ok_iff in Ex.
  destruct Ex as (a & h & p & sp & ds & b & Ha & Hi & Hh & Ht & Hp & Hd & Hs & Hds
                  & Hdt & Hb & He).
  repeat match type of Hmiss with
         | _ \/ _ => destruct Hmiss as [Hmiss|Hmiss]
         end;
    repeat match type of Hmiss with
           | exists _, _ => destruct Hmiss as [? Hmiss]
           end;
    repeat match type of Hmiss with
           | _ /\ _ => let H1 := fresh in destruct Hmiss as [H1 Hmiss];
                       try (rewrite H1 in *)
           end;
    congruence.
Qed.

(** ** C7: entry identifier and link *)

(** Claim C7. [add_feed_item] appends one entry, whose identifier is
    [BASE_URL] followed by the record's [id] and whose only link is the
    record's enclosure URL with relation "alternate". *)
Theorem add_feed_item_id_link (fg : FeedGenerator) (info : Info) (now : datetime) :
  exists e,
    fg_entries (add_feed_item fg info now) = app (fg_entries fg) [e] /\
    fe_id e = append "https://podcast.app" (info_id info) /\
    fe_link e = [mklink (info_enc info) "alternate"].
Proof.
  exists (make_entry fg info now). repeat split.
Qed.

(** ** C5 and C10: the row filter and the lookups by tag name *)

Lemma find_none_iff (name cls : string) (n : node) :
  find name cls n = None <->
  forall d, In d (descendants n) -> matches name cls d = false.
Proof.
  unfold find. destruct (filter (matches name cls) (descendants n)) as [|x l] eqn:F.
  - split; [|reflexivity]. intros _ d Hd.
    destruct (matches name cls d) eqn:M; [|reflexivity].
    assert (In d (filter (matches name cls) (descendants n))) as Hin
      by (apply filter_In; auto).
    rewrite F in Hin. contradiction.
  - split; [discriminate|]. intro H.
    assert (In x (filter (matches name cls) (descendants n))) as Hin
      by (rewrite F; left; reflexivity).
    apply filter_In in Hin. destruct Hin as [Hin Hm].
    rewrite (H x Hin) in Hm. discriminate.
Qed.

Lemma is_entry_row_existsb (li : node) :
  is_entry_row li = existsb (matches "span" "ep-published") (descendants li).
Proof.
  unfold is_entry_row.
  destruct (find "span" "ep-published" li) eqn:F.
  - symmetry. apply existsb_exists.
    unfold find in F.
    destruct (filter (matches "span" "ep-published") (descendants li)) as [|x l] eqn:G;
      [discriminate|].
    injection F as <-.
    assert (In x (filter (matches "span" "ep-published") (descendants li))) as Hin
      by (rewrite G; left; reflexivity).
    apply filter_In in Hin. exists x. exact Hin.
  - rewrite find_none_iff in F.
    symmetry. apply not_true_iff_false. intro H.
    apply existsb_exists in H. destruct H as (d & Hd & Hm).
    rewrite (F d Hd) in Hm. discriminate.
Qed.

(** Claim C5. The rows [gen_entries] yields are the [tr] elements of the
    document, in document order, kept exactly when one of their
    descendants is a [span] of class [ep-published]; a row without one
    is dropped, so [main] never extracts a record from it. *)
Theorem gen_entries_marked_rows (parse_html : string -> node) (r : Response) :
  gen_entries parse_html r
  = filter (fun li => existsb (matches "span" "ep-published") (descendants li))
           (filter (has_name "tr") (descendants (parse_html (text r)))) /\
  (forall li,
     In li (gen_entries parse_html r) <->
     In li (descendants (parse_html (text r))) /\ has_name "tr" li = true /\
     exists d, In d (descendants li) /\
               has_name "span" d = true /\ has_class "ep-published" d = true).
Proof.
  assert (E : gen_entries parse_html r
              = filter (fun li => existsb (matches "span" "ep-published") (descendants li))
                       (filter (has_name "tr") (descendants (parse_html (text r))))).
  { unfold gen_entries, find_all_name. apply filter_ext. exact is_entry_row_existsb. }
  split; [exact E|]. intro li. rewrite E, !filter_In, existsb_exists.
  unfold matches. split.
  - intros [[Hin Htr] (d & Hd & Hm)]. apply andb_true_iff in Hm. eauto 6.
  - intros (Hin & Htr & d & Hd & Hn & Hc). split; [auto|].
    exists d. rewrite Hn, Hc. auto.
Qed.

(** Claim C10. The lookups match on the tag name as well as the class:
    if every descendant of a row that carries one of the five classes
    has a tag name other than the one the code asks for, that lookup
    finds nothing, so [extract_info] raises; for the [ep-published]
    marker the row is moreover dropped by [gen_entries]. *)
Theorem lookup_requires_tag_name (li : node) (name cls : string) :
  In (name, cls) [("a", "ep-item"); ("h3", "ep-row-title"); ("p", "ep-row-desc");
                  ("span", "ep-published"); ("a", "play-btn")] ->
  (forall d, In d (descendants li) -> has_class cls d = true ->
             has_name name d = false) ->
  (exists e, extract_info li = Err e) /\
  (cls = "ep-published" -> is_entry_row li = false).
Proof.
  intros Hl Hwrong.
  assert (F : find name cls li = None).
  { apply find_none_iff. intros d Hd. unfold matches.
    destruct (has_class cls d) eqn:C.
    - rewrite (Hwrong d Hd C). reflexivity.
    - apply andb_false_r. }
  split.
  - destruct (extract_info li) as [info|e] eqn:Ex; [|eauto].
    exfalso. apply extract_info_ok_iff in Ex.
    destruct Ex as (a & h & p & sp & ds & b & Ha & _ & Hh & _ & Hp & _ & Hs & _
                    & _ & Hb & _).
    simpl in Hl.
    repeat destruct Hl as [Hl|Hl]; try contradiction;
      injection Hl as <- <-; congruence.
  - intros ->. unfold is_entry_row.
    simpl in Hl.
    repeat destruct Hl as [Hl|Hl]; try contradiction;
      inversion Hl; subst; rewrite F; reflexivity.
Qed.

Example extract_row_A : extract_info row_A = Ok info_A.
Proof. vm_compute. reflexivity. Qed.

Example gen_entries_page :
  gen_entries (fun _ => page [row_A; row_B; row_C]) ok_resp = [row_A; row_B; row_C].
Proof. vm_compute. reflexivity. Qed.

(** Claim C10, at a row whose item anchor is a [div]. *)
Lemma lookup_requires_tag_name_witness :
  In ("a", "ep-item") [("a", "ep-item"); ("h3", "ep-row-title"); ("p", "ep-row-desc");
                       ("span", "ep-published"); ("a", "play-btn")] /\
  (forall d, In d (descendants row_div_item) -> has_class "ep-item" d = true ->
             has_name "a" d = false) /\
  (exists e, extract_info row_div_item = Err e).
Proof.
  assert (H1 : In ("a", "ep-item") [("a", "ep-item"); ("h3", "ep-row-title");
                 ("p", "ep-row-desc"); ("span", "ep-published"); ("a", "play-btn")])
    by (left; reflexivity).
  assert (H2 : forall d, In d (descendants row_div_item) ->
                 has_class "ep-item" d = true -> has_name "a" d = false).
  { intros d Hd. simpl in Hd.
    repeat destruct Hd as [<-|Hd]; try contradiction;
      vm_compute; intro; first [reflexivity | discriminate]. }
  split; [exact H1|]. split; [exact H2|].
  exact (proj1 (lookup_requires_tag_name row_div_item "a" "ep-item" H1 H2)).
Defined.

(** ** C4 and C6: the run over all rows *)

Lemma add_items_err (clock : nat -> datetime) (rows : list node) :
  forall fg k,
  (exists li e, In li rows /\ extract_info li = Err e) ->
  exists e, add_items clock fg k rows = Err e.
Proof.
  induction rows as [|li rest IH]; intros fg k (x & e & Hin & Hx);
    [contradiction|].
  simpl. destruct Hin as [<-|Hin].
  - rewrite Hx. simpl. eauto.
  - destruct (extract_info li); simpl; eauto.
Qed.

Lemma make_entry_author (fg1 fg2 : FeedGenerator) :
  fg_author fg1 = fg_author fg2 -> make_entry fg1 = make_entry fg2.
Proof. intro H. unfold make_entry. rewrite H. reflexivity. Qed.

Lemma add_items_ok (clock : nat -> datetime) (rows : list node) (infos : list Info) :
  Forall2 (fun li i => extract_info li = Ok i) rows infos ->
  forall fg k,
  exists fg',
    add_items clock fg k rows = Ok fg' /\
    fg_author fg' = fg_author fg /\
    fg_entries fg'
    = app (fg_entries fg)
          (map (fun p => make_entry fg (snd p) (clock (fst p)))
               (combine (seq k (length infos)) infos)).
Proof.
  induction 1 as [|li i rows infos Hx Hall IH]; intros fg k.
  - exists fg. simpl. rewrite app_nil_r. auto.
  - simpl. rewrite Hx. simpl.
    destruct (IH (add_feed_item fg i (clock k)) (S k)) as (fg' & Hr & Ha & He).
    exists fg'. split; [exact Hr|]. split; [exact Ha|].
    rewrite He. simpl.
    rewrite (make_entry_author (add_feed_item fg i (clock k)) fg) by reflexivity.
    rewrite <- app_assoc. reflexivity.
Qed.

Lemma add_items_shape (clock : nat -> datetime) (rows : list node) :
  forall fg k fg',
  add_items clock fg k rows = Ok fg' ->
  channel fg' = channel fg /\
  exists new,
    fg_entries fg' = app (fg_entries fg) new /\
    length new = length rows /\
    Forall (fun e => fe_author e = fg_author fg) new.
Proof.
  induction rows as [|li rest IH]; intros fg k fg' H; simpl in H.
  - injection H as <-. split; [reflexivity|].
    exists []. rewrite app_nil_r. auto.
  - destruct (extract_info li) as [i|e]; simpl in H; [|discriminate].
    destruct (IH _ _ _ H) as (Hc & new & He & Hl & Ha).
    split; [exact Hc|].
    exists (make_entry fg i (clock k) :: new).
    split; [rewrite He; simpl; rewrite <- app_assoc; reflexivity|].
    split; [simpl; rewrite Hl; reflexivity|].
    constructor; [reflexivity|exact Ha].
Qed.

Lemma add_items_ok_inv (clock : nat -> datetime) (rows : list node) :
  forall fg k fg',
  add_items clock fg k rows = Ok fg' ->
  Forall (fun li => exists i, extract_info li = Ok i) rows.
Proof.
  induction rows as [|li rest IH]; intros fg k fg' H; simpl in H; [constructor|].
  destruct (extract_info li) as [i|e] eqn:Ex; simpl in H; [|discriminate].
  constructor; [eauto|]. eapply IH. exact H.
Qed.

Lemma Forall_extract_Forall2 (rows : list node) :
  Forall (fun li => exists i, extract_info li = Ok i) rows ->
  exists infos, Forall2 (fun li i => extract_info li = Ok i) rows infos.
Proof.
  induction 1 as [|li rest [i Hi] _ [infos Hall]].
  - exists []. constructor.
  - exists (i :: infos). constructor; assumption.
Qed.

Lemma add_items_ok_eq (clock : nat -> datetime) (rows : list node) (infos : list Info) :
  Forall2 (fun li i => extract_info li = Ok i) rows infos ->
  forall fg k,
  add_items clock fg k rows
  = Ok {| fg_id := fg_id fg; fg_title := fg_title fg; fg_link := fg_link fg;
          fg_logo := fg_logo fg; fg_language := fg_language fg;
          fg_description := fg_description fg; fg_docs := fg_docs fg;
          fg_author := fg_author fg;
          fg_entries := app (fg_entries fg)
                          (map (fun p => make_entry fg (snd p) (clock (fst p)))
                               (combine (seq k (length infos)) infos)) |}.
Proof.
  induction 1 as [|li i rows infos Hx Hall IH]; intros fg k.
  - destruct fg. simpl. rewrite app_nil_r. reflexivity.
  - simpl. rewrite Hx. simpl. rewrite IH. simpl.
    rewrite (make_entry_author (add_feed_item fg i (clock k)) fg) by reflexivity.
    rewrite <- app_assoc. reflexivity.
Qed.

Lemma add_items_assembled (clock : nat -> datetime) (rows : list node) (infos : list Info) :
  Forall2 (fun li i => extract_info li = Ok i) rows infos ->
  add_items clock create_base_feed 0 rows = Ok (assembled_feed clock infos).
Proof. intro H. rewrite (add_items_ok_eq clock rows infos H). reflexivity. Qed.

Lemma extract_Forall2_unique (rows : list node) (i1 i2 : list Info) :
  Forall2 (fun li i => extract_info li = Ok i) rows i1 ->
  Forall2 (fun li i => extract_info li = Ok i) rows i2 -> i1 = i2.
Proof.
  intro H1. revert i2. induction H1 as [|li a rows i1 Ha _ IH]; intros i2 H2;
    inversion H2 as [|li' b rows' i2' Hb H2' E1 E2]; subst; [reflexivity|].
  rewrite Ha in Hb. injection Hb as ->. f_equal. apply IH. exact H2'.
Qed.

(** Claim C4. Every run leaves the feed file as it was or replaces it
    whole by the rendering of the assembled feed (with a normal return).
    When the fetch succeeded and some selected row fails extraction,
    the exception escapes [main], the process exits with status 1 and
    the feed file is untouched. *)
Theorem main_extraction_failure_aborts (parse_html : string -> node)
  (rss_str : FeedGenerator -> string) (rss_error : FeedGenerator -> option exn)
  (clock : nat -> datetime)
  (r : Response) (fs0 : option string) :
  (fs (main parse_html rss_str rss_error clock r fs0) = fs0 \/
   exists fg, outcome (main parse_html rss_str rss_error clock r fs0) = Ok None /\
              fs (main parse_html rss_str rss_error clock r fs0) = Some (rss_str fg)) /\
  (resp_ok r = true ->
   (exists li e, In li (gen_entries parse_html r) /\ extract_info li = Err e) ->
   (exists e, outcome (main parse_html rss_str rss_error clock r fs0) = Err e) /\
   exit_status (outcome (main parse_html rss_str rss_error clock r fs0)) = 1 /\
   fs (main parse_html rss_str rss_error clock r fs0) = fs0).
Proof.
  split.
  - unfold main. destruct (resp_ok r); simpl; [|auto].
    destruct (add_items _ _ _ _) as [fg|e]; simpl; [|auto].
    destruct (rss_error fg); simpl; eauto.
  - intros Hok Hfail. unfold main. rewrite Hok. simpl.
    destruct (add_items_err clock (gen_entries parse_html r) create_base_feed 0 Hfail)
      as [e He].
    rewrite He. simpl. eauto.
Qed.

(** Claim C6. The feed [main] writes holds one entry per record of
    [gen_entries], in that order: the [k]-th entry is built from the
    [k]-th record (and the [k]-th clock reading); nothing is sorted,
    merged or dropped. A run writes the feed only when it returns
    normally. *)
Theorem main_entries_in_selector_order (parse_html : string -> node)
  (rss_str : FeedGenerator -> string) (rss_error : FeedGenerator -> option exn)
  (clock : nat -> datetime) (r : Response) (fs0 : option string) :
  outcome (main parse_html rss_str rss_error clock r fs0) = Ok None ->
  exists fg infos,
    Forall2 (fun li i => extract_info li = Ok i) (gen_entries parse_html r) infos /\
    fs (main parse_html rss_str rss_error clock r fs0) = Some (rss_str fg) /\
    fg_entries fg
    = map (fun p => make_entry create_base_feed (snd p) (clock (fst p)))
          (combine (seq 0 (length infos)) infos).
Proof.
  unfold main. destruct (resp_ok r); simpl; [|discriminate].
  destruct (add_items clock create_base_feed 0 (gen_entries parse_html r))
    as [fg|e] eqn:Ha; simpl; [|discriminate].
  destruct (rss_error fg); simpl; [discriminate|]. intros _.
  destruct (Forall_extract_Forall2 _ (add_items_ok_inv _ _ _ _ _ Ha)) as [infos Hall].
  rewrite (add_items_assembled clock _ _ Hall) in Ha. injection Ha as <-.
  exists (assembled_feed clock infos), infos. auto.
Qed.

Lemma main_extraction_failure_aborts_witness :
  resp_ok ok_resp = true /\
  In row_B (gen_entries (fun _ => page [row_A; row_B; row_C]) ok_resp) /\
  extract_info row_B = Err AttributeError /\
  exit_status (outcome (main (fun _ => page [row_A; row_B; row_C]) (fun _ => "<rss/>") (fun _ => None)
                          (fun _ => epoch) ok_resp (Some "old feed"))) = 1 /\
  fs (main (fun _ => page [row_A; row_B; row_C]) (fun _ => "<rss/>") (fun _ => None)
        (fun _ => epoch) ok_resp (Some "old feed")) = Some "old feed".
Proof.
  assert (Hok : resp_ok ok_resp = true) by reflexivity.
  assert (Hin : In row_B (gen_entries (fun _ => page [row_A; row_B; row_C]) ok_resp))
    by (vm_compute; right; left; reflexivity).
  assert (Hb : extract_info row_B = Err AttributeError) by (vm_compute; reflexivity).
  destruct (proj2 (main_extraction_failure_aborts (fun _ => page [row_A; row_B; row_C])
                     (fun _ => "<rss/>") (fun _ => None) (fun _ => epoch) ok_resp (Some "old feed"))
              Hok (ex_intro _ row_B (ex_intro _ AttributeError (conj Hin Hb))))
    as (_ & Hx & Hfs).
  repeat split; assumption.
Defined.

Lemma main_entries_in_selector_order_witness :
  outcome (main (fun _ => page [row_C; row_A]) (fun _ => "<rss/>") (fun _ => None)
             (fun _ => epoch) ok_resp None) = Ok None /\
  exists fg infos,
    Forall2 (fun li i => extract_info li = Ok i)
      (gen_entries (fun _ => page [row_C; row_A]) ok_resp) infos /\
    fs (main (fun _ => page [row_C; row_A]) (fun _ => "<rss/>") (fun _ => None)
          (fun _ => epoch) ok_resp None) = Some "<rss/>" /\
    fg_entries fg
    = map (fun p => make_entry create_base_feed (snd p) epoch)
          (combine (seq 0 (length infos)) infos).
Proof.
  assert (H : outcome (main (fun _ => page [row_C; row_A]) (fun _ => "<rss/>")
                         (fun _ => None) (fun _ => epoch) ok_resp None) = Ok None)
    by (vm_compute; reflexivity).
  split; [exact H|].
  exact (main_entries_in_selector_order (fun _ => page [row_C; row_A])
           (fun _ => "<rss/>") (fun _ => None) (fun _ => epoch) ok_resp None H).
Defined.

(** ** C2: what [strptime(_, '%m.%d.%Y')] accepts *)

Definition is_digit (c : ascii) : Prop := range "0" "9" c = true.














Lemma re_Y_digits (a b c e : ascii) (rest : list ascii) :
  is_digit a -> is_digit b -> is_digit c -> is_digit e ->
  re_Y (a :: b :: c :: e :: rest) = [([a; b; c; e], rest)].
Proof.
  unfold is_digit, re_Y, re_cat, re_digit, chr. intros Ha Hb Hc He.
  rewrite Ha. cbn [flat_map map fst snd app]. rewrite Hb.
  cbn [flat_map map fst snd app]. rewrite Hc.
  cbn [flat_map map fst snd app]. rewrite He. reflexivity.
Qed.

Lemma lit_dot (rest : list ascii) : lit "." ("."%char :: rest) = [(["."%char], rest)].
Proof. reflexivity. Qed.

Lemma days_in_month_le_31 (y m : Z) : days_in_month y m <= 31.
Proof.
  unfold days_in_month.
  destruct m as [|p|p]; try lia.
  repeat (destruct p as [p|p|]; try lia); destruct (is_leap y); lia.
Qed.













(** ** C8: the description paragraph *)

(** Claim C8 as stated fails: an empty description paragraph
    [<p class="ep-row-desc"></p>] has no [.string], and the [Info]
    validator rejects the [None]. *)
Lemma empty_description_counterexample :
  extract_info (episode_row "/e/6" "Empty" [] "01.02.2023" true) = Err TypeError.
Proof. vm_compute. reflexivity. Qed.

(** Claim C8 (amended). When the row's description paragraph is
    found, the description is that paragraph's [.string]: a successful
    extraction takes it; a paragraph with a [.string] gives a record
    with it whenever the other four fields are present and valid; and
    when the paragraph has no [.string] (no child, as an empty
    paragraph, or several children) extraction raises. *)
Theorem extract_info_description (li p : node) :
  find "p" "ep-row-desc" li = Some p ->
  (forall info, extract_info li = Ok info ->
                tag_string p = Some (info_description info)) /\
  (tag_string p = None -> exists e, extract_info li = Err e) /\
  (forall desc a id h title sp ds date b enc,
     tag_string p = Some desc ->
     find "a" "ep-item" li = Some a -> get "href" a = Some id ->
     find "h3" "ep-row-title" li = Some h -> tag_string h = Some title ->
     find "span" "ep-published" li = Some sp -> tag_string sp = Some ds ->
     parse_published ds = Ok date ->
     find "a" "play-btn" li = Some b -> get "data-mp3" b = Some enc ->
     extract_info li = Ok (mkInfo id title desc enc date)).
Proof.
  intro Hp. split; [|split].
  - intros info Hx. apply extract_info_ok_iff in Hx.
    destruct Hx as (a & h & p' & sp & ds & b & _ & _ & _ & _ & Hp' & Hd & _).
    rewrite Hp in Hp'. injection Hp' as <-. exact Hd.
  - intro Hn. destruct (extract_info li) as [info|e] eqn:Hx; [|eauto].
    exfalso. apply extract_info_ok_iff in Hx.
    destruct Hx as (a & h & p' & sp & ds & b & _ & _ & _ & _ & Hp' & Hd & _).
    rewrite Hp in Hp'. injection Hp' as <-. congruence.
  - intros desc a id h title sp ds date b enc Hd Ha Hi Hh Ht Hs Hds Hdt Hb He.
    apply extract_info_ok_iff. exists a, h, p, sp, ds, b. simpl.
    repeat split; assumption.
Qed.

Lemma extract_info_description_witness :
  find "p" "ep-row-desc" (episode_row "/e/6" "Empty" [] "01.02.2023" true)
  = Some (Elem "p" [] ["ep-row-desc"] []) /\
  tag_string (Elem "p" [] ["ep-row-desc"] []) = None /\
  exists e, extract_info (episode_row "/e/6" "Empty" [] "01.02.2023" true) = Err e.
Proof.
  assert (Hp : find "p" "ep-row-desc" (episode_row "/e/6" "Empty" [] "01.02.2023" true)
               = Some (Elem "p" [] ["ep-row-desc"] [])) by (vm_compute; reflexivity).
  assert (Hn : tag_string (Elem "p" [] ["ep-row-desc"] []) = None) by reflexivity.
  split; [exact Hp|]. split; [exact Hn|].
  exact (proj1 (proj2 (extract_info_description _ _ Hp)) Hn).
Defined.

(** * Further properties of the code *)

(** ** [resp_report]: the status code in decimal *)

Lemma list_ascii_of_string_append (a b : string) :
  list_ascii_of_string (append a b)
  = app (list_ascii_of_string a) (list_ascii_of_string b).
Proof. induction a as [|c a IH]; simpl; [reflexivity|]. rewrite IH. reflexivity. Qed.

(** One step of [int_of]. *)
Definition int_step (acc : Z) (c : ascii) : Z :=
  if is_space c then acc else 10 * acc + Z.of_nat (code c - 48)%nat.

Lemma digit_char (k : Z) :
  0 <= k < 10 ->
  is_digit (ascii_of_nat (48 + Z.to_nat k)) /\
  is_space (ascii_of_nat (48 + Z.to_nat k)) = false /\
  Z.of_nat (code (ascii_of_nat (48 + Z.to_nat k)) - 48)%nat = k.
Proof.
  intro Hk. unfold is_digit, range, is_space, code.
  rewrite nat_ascii_embedding by lia.
  change (nat_of_ascii "0") with 48%nat. change (nat_of_ascii "9") with 57%nat.
  split; [|split].
  - apply andb_true_iff; split; apply Nat.leb_le; lia.
  - rewrite !orb_false_iff, !andb_false_iff, !Nat.leb_gt, !Nat.eqb_neq. lia.
  - rewrite Nat.add_comm, Nat.add_sub, Z2Nat.id; lia.
Qed.

Lemma digits_aux_spec (fuel : nat) :
  forall n acc, (1 <= fuel)%nat -> 0 <= n < 2 ^ Z.of_nat fuel ->
  exists ds,
    list_ascii_of_string (digits_aux fuel n acc) = app ds (list_ascii_of_string acc) /\
    ds <> [] /\ Forall is_digit ds /\
    forall a, fold_left int_step ds a = a * 10 ^ Z.of_nat (length ds) + n.
Proof.
  induction fuel as [|f IH]; intros n acc Hf Hn; [lia|].
  pose proof (Z.mod_pos_bound n 10 ltac:(lia)) as Hm.
  destruct (digit_char (n mod 10) Hm) as (Hd & Hs & Hv).
  cbn [digits_aux]. destruct (n <? 10) eqn:Hlt.
  - apply Z.ltb_lt in Hlt.
    exists [ascii_of_nat (48 + Z.to_nat (n mod 10))].
    split; [reflexivity|]. split; [discriminate|]. split; [auto|].
    intro a. cbn [fold_left length]. unfold int_step.
    rewrite Hs, Hv, Z.mod_small by lia. lia.
  - apply Z.ltb_ge in Hlt.
    assert (Hf' : (1 <= f)%nat).
    { destruct f as [|f]; [|lia]. simpl in Hn. lia. }
    assert (Hq : 0 <= n / 10 < 2 ^ Z.of_nat f).
    { rewrite Nat2Z.inj_succ, Z.pow_succ_r in Hn by lia.
      split; [apply Z.div_pos; lia|].
      apply Z.div_lt_upper_bound; lia. }
    destruct (IH (n / 10) (String (ascii_of_nat (48 + Z.to_nat (n mod 10))) acc) Hf' Hq)
      as (ds & He & Hne & Hall & Hfold).
    exists (app ds [ascii_of_nat (48 + Z.to_nat (n mod 10))]).
    split; [rewrite He, <- app_assoc; reflexivity|].
    split; [destruct ds; [contradiction|discriminate]|].
    split; [apply Forall_app; auto|].
    intro a. rewrite fold_left_app, Hfold. cbn [fold_left length]. unfold int_step.
    rewrite Hs, Hv, length_app, Nat2Z.inj_add, Z.pow_add_r by lia.
    change (Z.of_nat (length [ascii_of_nat (48 + Z.to_nat (n mod 10))])) with 1.
    pose proof (Z.div_mod n 10 ltac:(lia)). nia.
Qed.

(** [resp_report] writes the status code as its decimal digits, then a
    blank, then the reason phrase: reading the digits back gives the
    status code. *)
Theorem resp_report_decimal (r : Response) :
  0 <= status_code r ->
  exists ds,
    list_ascii_of_string (resp_report r)
    = app ds (" "%char :: list_ascii_of_string (reason r)) /\
    ds <> [] /\ Forall is_digit ds /\ int_of ds = status_code r.
Proof.
  intro H. unfold resp_report, str_of_Z.
  destruct (status_code r <? 0) eqn:Hneg; [apply Z.ltb_lt in Hneg; lia|].
  assert (Hb : 0 <= status_code r < 2 ^ Z.of_nat (S (Z.to_nat (Z.log2 (status_code r))))).
  { split; [lia|].
    rewrite Nat2Z.inj_succ, Z2Nat.id by apply Z.log2_nonneg.
    destruct (Z.eq_dec (status_code r) 0) as [->|Hz]; [reflexivity|].
    apply Z.log2_spec. lia. }
  destruct (digits_aux_spec (S (Z.to_nat (Z.log2 (status_code r)))) (status_code r) ""
              ltac:(lia) Hb)
    as (ds & He & Hne & Hall & Hfold).
  exists ds. rewrite list_ascii_of_string_append, He. simpl.
  rewrite app_nil_r. repeat split; auto.
  change (int_of ds) with (fold_left int_step ds 0). rewrite (Hfold 0). lia.
Qed.

Lemma resp_report_decimal_witness :
  0 <= status_code (mkresp 503 "Service Unavailable" "") /\
  exists ds,
    list_ascii_of_string (resp_report (mkresp 503 "Service Unavailable" ""))
    = app ds (" "%char :: list_ascii_of_string "Service Unavailable") /\
    ds <> [] /\ Forall is_digit ds /\ int_of ds = 503.
Proof.
  assert (H : 0 <= status_code (mkresp 503 "Service Unavailable" "")) by (simpl; lia).
  split; [exact H|]. exact (resp_report_decimal _ H).
Defined.

(** ** The feed [main] writes *)

(** A run ends normally exactly when the fetch succeeded, every
    selected row extracts, and [rss_file] writes the feed assembled from
    the records without raising. *)
Theorem main_succeeds_iff (parse_html : string -> node)
  (rss_str : FeedGenerator -> string) (rss_error : FeedGenerator -> option exn)
  (clock : nat -> datetime) (r : Response) (fs0 : option string) :
  outcome (main parse_html rss_str rss_error clock r fs0) = Ok None <->
  resp_ok r = true /\
  exists infos,
    Forall2 (fun li i => extract_info li = Ok i) (gen_entries parse_html r) infos /\
    rss_error (assembled_feed clock infos) = None.
Proof.
  unfold main. destruct (resp_ok r) eqn:Hok; simpl.
  - split.
    + destruct (add_items clock create_base_feed 0 (gen_entries parse_html r))
        as [fg|e] eqn:Ha; simpl; [|discriminate].
      destruct (rss_error fg) eqn:Hw; simpl; [discriminate|]. intros _.
      split; [reflexivity|].
      destruct (Forall_extract_Forall2 _ (add_items_ok_inv _ _ _ _ _ Ha)) as [infos Hall].
      rewrite (add_items_assembled clock _ _ Hall) in Ha. injection Ha as <-.
      exists infos. auto.
    + intros (_ & infos & Hall & Hw).
      rewrite (add_items_assembled clock _ _ Hall). simpl. rewrite Hw. reflexivity.
  - split; [discriminate|]. intros [H _]. discriminate.
Qed.

(** When a run ends normally, the file written is the rendering of a
    feed whose feed-level data are those of [create_base_feed], with one
    entry per selected row, and no entry has an author. *)
Theorem main_written_feed_shape (parse_html : string -> node)
  (rss_str : FeedGenerator -> string) (rss_error : FeedGenerator -> option exn)
  (clock : nat -> datetime)
  (r : Response) (fs0 : option string) :
  outcome (main parse_html rss_str rss_error clock r fs0) = Ok None ->
  exists fg,
    fs (main parse_html rss_str rss_error clock r fs0) = Some (rss_str fg) /\
    channel fg = channel create_base_feed /\
    length (fg_entries fg) = length (gen_entries parse_html r) /\
    Forall (fun e => fe_author e = []) (fg_entries fg).
Proof.
  unfold main. destruct (resp_ok r); simpl; [|discriminate].
  destruct (add_items clock create_base_feed 0 (gen_entries parse_html r))
    as [fg|e] eqn:Ha; simpl; [|discriminate].
  destruct (rss_error fg); simpl; [discriminate|].
  intros _. exists fg. split; [reflexivity|].
  destruct (add_items_shape _ _ _ _ _ Ha) as (Hc & new & He & Hl & Hau).
  split; [exact Hc|]. rewrite He. simpl. split; [exact Hl|]. exact Hau.
Qed.

Lemma main_written_feed_shape_witness :
  outcome (main (fun _ => page [row_A; row_C]) (fun _ => "<rss/>") (fun _ => None) (fun _ => epoch)
             ok_resp None) = Ok None /\
  exists fg,
    fs (main (fun _ => page [row_A; row_C]) (fun _ => "<rss/>") (fun _ => None) (fun _ => epoch)
          ok_resp None) = Some "<rss/>" /\
    channel fg = channel create_base_feed /\
    length (fg_entries fg) = length (gen_entries (fun _ => page [row_A; row_C]) ok_resp) /\
    Forall (fun e => fe_author e = []) (fg_entries fg).
Proof.
  assert (H : outcome (main (fun _ => page [row_A; row_C]) (fun _ => "<rss/>") (fun _ => None)
                         (fun _ => epoch) ok_resp None) = Ok None)
    by (vm_compute; reflexivity).
  split; [exact H|]. exact (main_written_feed_shape _ _ _ _ _ _ H).
Defined.

(** A page with no selected row still reaches the write: the old file
    is replaced by a feed with no entries, or [rss_file]'s exception
    escapes and the old file stays. *)
Theorem main_no_rows_empty_feed (parse_html : string -> node)
  (rss_str : FeedGenerator -> string) (rss_error : FeedGenerator -> option exn)
  (clock : nat -> datetime) (r : Response) (fs0 : option string) :
  resp_ok r = true -> gen_entries parse_html r = [] ->
  (rss_error create_base_feed = None ->
   outcome (main parse_html rss_str rss_error clock r fs0) = Ok None /\
   fs (main parse_html rss_str rss_error clock r fs0) = Some (rss_str create_base_feed) /\
   fg_entries create_base_feed = []) /\
  (forall e, rss_error create_base_feed = Some e ->
   outcome (main parse_html rss_str rss_error clock r fs0) = Err e /\
   fs (main parse_html rss_str rss_error clock r fs0) = fs0).
Proof.
  intros Hok He. unfold main. rewrite Hok, He. simpl.
  split; [intro Hw|intros e Hw]; rewrite Hw; simpl; auto.
Qed.

Lemma main_no_rows_empty_feed_witness :
  resp_ok ok_resp = true /\ gen_entries (fun _ => page []) ok_resp = [] /\
  fs (main (fun _ => page []) (fun _ => "<rss/>") (fun _ => None) (fun _ => epoch)
        ok_resp (Some "old")) = Some "<rss/>" /\
  fs (main (fun _ => page []) (fun _ => "<rss/>") (fun _ => Some OSError) (fun _ => epoch)
        ok_resp (Some "old")) = Some "old".
Proof.
  assert (H1 : resp_ok ok_resp = true) by reflexivity.
  assert (H2 : gen_entries (fun _ => page []) ok_resp = []) by (vm_compute; reflexivity).
  split; [exact H1|]. split; [exact H2|]. split.
  - exact (proj1 (proj2 (proj1 (main_no_rows_empty_feed (fun _ => page [])
             (fun _ => "<rss/>") (fun _ => None) (fun _ => epoch) ok_resp (Some "old")
             H1 H2) eq_refl))).
  - exact (proj2 (proj2 (main_no_rows_empty_feed (fun _ => page [])
             (fun _ => "<rss/>") (fun _ => Some OSError) (fun _ => epoch) ok_resp
             (Some "old") H1 H2) OSError eq_refl)).
Defined.



(** When the fetch succeeded and every selected row extracts, but
    [rss_file] raises on the assembled feed (a string XML does not
    allow, or a file that cannot be opened), the exception escapes
    [main]: the process exits with status 1, the old file stays, and
    "Articles added to feed" is the last line logged. *)
Theorem main_write_failure (parse_html : string -> node)
  (rss_str : FeedGenerator -> string) (rss_error : FeedGenerator -> option exn)
  (clock : nat -> datetime) (r : Response) (fs0 : option string)
  (infos : list Info) (e : exn) :
  resp_ok r = true ->
  Forall2 (fun li i => extract_info li = Ok i) (gen_entries parse_html r) infos ->
  rss_error (assembled_feed clock infos) = Some e ->
  outcome (main parse_html rss_str rss_error clock r fs0) = Err e /\
  exit_status (outcome (main parse_html rss_str rss_error clock r fs0)) = 1 /\
  fs (main parse_html rss_str rss_error clock r fs0) = fs0 /\
  logs (main parse_html rss_str rss_error clock r fs0)
  = [(INFO, "Download pages retrieved."); (INFO, "Base feed generator created");
     (INFO, "Articles added to feed")].
Proof.
  intros Hok Hall Hw. unfold main. rewrite Hok, (add_items_assembled clock _ _ Hall).
  simpl. rewrite Hw. simpl. auto.
Qed.

Lemma main_write_failure_witness :
  resp_ok ok_resp = true /\
  Forall2 (fun li i => extract_info li = Ok i)
    (gen_entries (fun _ => page [row_A]) ok_resp) [info_A] /\
  exit_status (outcome (main (fun _ => page [row_A]) (fun _ => "<rss/>")
                          (fun _ => Some ValueError) (fun _ => epoch) ok_resp (Some "old")))
  = 1 /\
  fs (main (fun _ => page [row_A]) (fun _ => "<rss/>") (fun _ => Some ValueError)
        (fun _ => epoch) ok_resp (Some "old")) = Some "old".
Proof.
  assert (H1 : resp_ok ok_resp = true) by reflexivity.
  assert (H2 : Forall2 (fun li i => extract_info li = Ok i)
                 (gen_entries (fun _ => page [row_A]) ok_resp) [info_A])
    by (vm_compute; repeat constructor).
  destruct (main_write_failure (fun _ => page [row_A]) (fun _ => "<rss/>")
              (fun _ => Some ValueError) (fun _ => epoch) ok_resp (Some "old")
              [info_A] ValueError H1 H2 eq_refl) as (_ & Hx & Hfs & _).
  split; [exact H1|]. split; [exact H2|]. split; assumption.
Defined.

(** ** Dates from [extract_info] *)

(** [strip] takes off the leading blanks, then the trailing ones. *)
Lemma lstrip_suffix (l : list ascii) : exists p, l = app p (lstrip l).
Proof.
  induction l as [|c l [p IH]]; simpl; [exists []; reflexivity|].
  destruct (is_space c); [exists (c :: p); rewrite IH at 1; reflexivity|].
  exists []; reflexivity.
Qed.

Lemma lstrip_head (l : list ascii) :
  lstrip l = [] \/ exists c r, lstrip l = c :: r /\ is_space c = false.
Proof.
  induction l as [|c l IH]; simpl; [auto|].
  destruct (is_space c) eqn:S; [exact IH|]. right. eauto.
Qed.

Lemma lstrip_fix (l : list ascii) :
  (l = [] \/ exists c r, l = c :: r /\ is_space c = false) -> lstrip l = l.
Proof.
  intros [->|(c & r & -> & S)]; simpl; [reflexivity|]. rewrite S. reflexivity.
Qed.

Lemma lstrip_idem (l : list ascii) : lstrip (lstrip l) = lstrip l.
Proof. apply lstrip_fix, lstrip_head. Qed.

Lemma strip_idem (s : string) : strip (strip s) = strip s.
Proof.
  unfold strip. rewrite list_ascii_of_string_of_list_ascii.
  set (L := lstrip (list_ascii_of_string s)).
  assert (HL : L = [] \/ exists c r, L = c :: r /\ is_space c = false)
    by apply lstrip_head.
  assert (HR : lstrip (rev (lstrip (rev L))) = rev (lstrip (rev L))).
  { apply lstrip_fix.
    destruct (lstrip_suffix (rev L)) as [p Hp].
    assert (E : L = app (rev (lstrip (rev L))) (rev p)).
    { rewrite <- rev_app_distr, <- Hp, rev_involutive. reflexivity. }
    destruct (rev (lstrip (rev L))) as [|c r]; [left; reflexivity|right].
    exists c, r. split; [reflexivity|].
    destruct HL as [HL|(c' & r' & HL & S)]; rewrite HL in E; [discriminate|].
    injection E as -> _. exact S. }
  rewrite HR, rev_involutive, lstrip_idem. reflexivity.
Qed.

(** Surrounding blanks never change the date read from the published
    marker: the text is stripped before it is parsed. *)
Theorem parse_published_strip (s : string) :
  parse_published (strip s) = parse_published s.
Proof. unfold parse_published. rewrite strip_idem. reflexivity. Qed.

(** ** Nested rows *)

(** Induction on the tree, with the hypothesis for every child. *)
Fixpoint node_ind' (P : node -> Prop) (HT : forall s, P (Text s))
  (HE : forall t a cs ch, Forall P ch -> P (Elem t a cs ch)) (n : node) : P n :=
  match n with
  | Text s => HT s
  | Elem t a cs ch =>
      HE t a cs ch
        ((fix go (l : list node) : Forall P l :=
            match l with
            | [] => Forall_nil P
            | x :: r => Forall_cons x (node_ind' P HT HE x) (go r)
            end) ch)
  end.

Lemma descendants_cons (t : string) a cs (x : node) (r : list node) :
  descendants (Elem t a cs (x :: r))
  = x :: app (descendants x) (descendants (Elem t a cs r)).
Proof. reflexivity. Qed.

Lemma descendants_Elem_iff (t : string) a cs (ch : list node) (y : node) :
  In y (descendants (Elem t a cs ch)) <->
  exists x, In x ch /\ (y = x \/ In y (descendants x)).
Proof.
  induction ch as [|x r IH].
  - simpl. split; [contradiction|]. intros (x & [] & _).
  - rewrite descendants_cons. simpl. rewrite in_app_iff, IH. split.
    + intros [<-|[H|(x' & Hx' & H)]]; eauto.
    + intros (x' & [<-|Hx'] & Hy).
      * destruct Hy as [->|H]; auto.
      * right; right. exists x'. auto.
Qed.

Lemma descendants_trans (n : node) :
  forall c d, In c (descendants n) -> In d (descendants c) -> In d (descendants n).
Proof.
  induction n as [s|t a cs ch IH] using node_ind'; intros c d Hc Hd;
    [contradiction|].
  apply descendants_Elem_iff in Hc. destruct Hc as (x & Hx & Hc).
  apply descendants_Elem_iff. exists x. split; [exact Hx|]. right.
  destruct Hc as [->|Hc]; [exact Hd|].
  rewrite Forall_forall in IH. exact (IH x Hx c d Hc Hd).
Qed.

(** A [tr] of the page that contains a selected row is selected too:
    [gen_entries] then yields both the outer and the inner row. *)
Theorem gen_entries_enclosing_row (parse_html : string -> node) (r : Response)
  (outer inner : node) :
  In outer (descendants (parse_html (text r))) -> has_name "tr" outer = true ->
  In inner (descendants outer) -> In inner (gen_entries parse_html r) ->
  In outer (gen_entries parse_html r).
Proof.
  intros Ho Htr Hi Hsel. unfold gen_entries, find_all_name in *.
  rewrite !filter_In in *. split; [split; assumption|].
  destruct Hsel as [_ Hm]. rewrite is_entry_row_existsb, existsb_exists in *.
  destruct Hm as (d & Hd & Hm). exists d. split; [|exact Hm].
  exact (descendants_trans outer inner d Hi Hd).
Qed.

Lemma gen_entries_enclosing_row_witness :
  In (Elem "tr" [] [] [Elem "td" [] [] [Elem "table" [] [] [row_A]]])
     (gen_entries (fun _ => nested_page) ok_resp).
Proof.
  apply (gen_entries_enclosing_row (fun _ => nested_page) ok_resp _ row_A);
    vm_compute; auto 8.
Defined.

(** ** Zero-padded dates read back *)

Lemma head_flat_map {A B} (f : A -> list B) (l : list A) (x : A) (z : B) :
  head l = Some x -> head (f x) = Some z -> head (flat_map f l) = Some z.
Proof.
  destruct l as [|x' l]; simpl; [discriminate|]. intros Hx Hz. injection Hx as ->.
  destruct (f x); simpl in *; [discriminate|exact Hz].
Qed.

Lemma head_map {A B} (f : A -> B) (l : list A) (x : A) :
  head l = Some x -> head (map f l) = Some (f x).
Proof. destruct l; simpl; [discriminate|]. intro H. injection H as ->. reflexivity. Qed.

Lemma re_m_pad (m : Z) (rest : list ascii) :
  1 <= m <= 12 ->
  head (re_m (digit_of (m / 10) :: digit_of (m mod 10) :: rest))
  = Some ([digit_of (m / 10); digit_of (m mod 10)], rest).
Proof.
  intro H.
  assert (E : m = 1 \/ m = 2 \/ m = 3 \/ m = 4 \/ m = 5 \/ m = 6 \/ m = 7 \/ m = 8
              \/ m = 9 \/ m = 10 \/ m = 11 \/ m = 12) by lia.
  repeat destruct E as [->|E]; try subst m; vm_compute; reflexivity.
Qed.

Lemma re_d_pad (d : Z) (rest : list ascii) :
  1 <= d <= 31 ->
  head (re_d (digit_of (d / 10) :: digit_of (d mod 10) :: rest))
  = Some ([digit_of (d / 10); digit_of (d mod 10)], rest).
Proof.
  intro H.
  assert (E : d = 1 \/ d = 2 \/ d = 3 \/ d = 4 \/ d = 5 \/ d = 6 \/ d = 7 \/ d = 8 \/ d = 9 \/ d = 10 \/ d = 11 \/ d = 12 \/ d = 13 \/ d = 14 \/ d = 15 \/ d = 16 \/ d = 17 \/ d = 18 \/ d = 19 \/ d = 20 \/ d = 21 \/ d = 22 \/ d = 23 \/ d = 24 \/ d = 25 \/ d = 26 \/ d = 27 \/ d = 28 \/ d = 29 \/ d = 30 \/ d = 31) by lia.
  repeat destruct E as [->|E]; try subst d; vm_compute; reflexivity.
Qed.

Lemma int_of_pad2 (n : Z) :
  0 <= n < 100 -> int_of [digit_of (n / 10); digit_of (n mod 10)] = n.
Proof.
  intro H. change (int_of ?l) with (fold_left int_step l 0). unfold digit_of.
  destruct (digit_char (n / 10) ltac:(split; [apply Z.div_pos|apply Z.div_lt_upper_bound]; lia))
    as (_ & S1 & V1).
  destruct (digit_char (n mod 10) (Z.mod_pos_bound n 10 ltac:(lia))) as (_ & S2 & V2).
  cbn [fold_left]. unfold int_step. rewrite S1, V1, S2, V2.
  pose proof (Z.div_mod n 10 ltac:(lia)). lia.
Qed.

Lemma pad4_digits (y : Z) :
  0 <= y <= 9999 ->
  is_digit (digit_of (y / 10 / 10 / 10)) /\ is_digit (digit_of (y / 10 / 10 mod 10)) /\
  is_digit (digit_of (y / 10 mod 10)) /\ is_digit (digit_of (y mod 10)) /\
  int_of [digit_of (y / 10 / 10 / 10); digit_of (y / 10 / 10 mod 10);
          digit_of (y / 10 mod 10); digit_of (y mod 10)] = y.
Proof.
  intro H.
  pose proof (Z.div_mod y 10 ltac:(lia)) as E1.
  pose proof (Z.div_mod (y / 10) 10 ltac:(lia)) as E2.
  pose proof (Z.div_mod (y / 10 / 10) 10 ltac:(lia)) as E3.
  pose proof (Z.mod_pos_bound y 10 ltac:(lia)) as B1.
  pose proof (Z.mod_pos_bound (y / 10) 10 ltac:(lia)) as B2.
  pose proof (Z.mod_pos_bound (y / 10 / 10) 10 ltac:(lia)) as B3.
  assert (B4 : 0 <= y / 10 / 10 / 10 < 10) by lia.
  unfold digit_of.
  destruct (digit_char _ B4) as (D4 & S4 & V4).
  destruct (digit_char _ B3) as (D3 & S3 & V3).
  destruct (digit_char _ B2) as (D2 & S2 & V2).
  destruct (digit_char _ B1) as (D1 & S1 & V1).
  repeat split; try assumption.
  change (int_of ?l) with (fold_left int_step l 0).
  cbn [fold_left]. unfold int_step. rewrite S1, V1, S2, V2, S3, V3, S4, V4. lia.
Qed.

Lemma head_re_mdY_format (y m d : Z) :
  1 <= y <= 9999 -> 1 <= m <= 12 -> 1 <= d <= 31 ->
  head (re_mdY (list_ascii_of_string (format_mdY y m d)))
  = Some ([digit_of (m / 10); digit_of (m mod 10)],
          [digit_of (d / 10); digit_of (d mod 10)],
          [digit_of (y / 10 / 10 / 10); digit_of (y / 10 / 10 mod 10);
           digit_of (y / 10 mod 10); digit_of (y mod 10)], []).
Proof.
  intros Hy Hm Hd. destruct (pad4_digits y ltac:(lia)) as (D1 & D2 & D3 & D4 & _).
  unfold format_mdY. rewrite list_ascii_of_string_of_list_ascii. unfold re_mdY.
  eapply head_flat_map; [apply re_m_pad; exact Hm|].
  cbn [snd fst]. rewrite lit_dot. cbn [flat_map]. rewrite app_nil_r.
  eapply head_flat_map; [apply re_d_pad; exact Hd|].
  cbn [snd fst]. rewrite lit_dot. cbn [flat_map]. rewrite app_nil_r.
  cbn [snd]. rewrite re_Y_digits by assumption. reflexivity.
Qed.

Lemma strip_format (y m d : Z) :
  1 <= y <= 9999 -> 1 <= m <= 12 -> 1 <= d <= 31 ->
  strip (format_mdY y m d) = format_mdY y m d.
Proof.
  intros Hy Hm Hd.
  destruct (digit_char (m / 10) ltac:(split; [apply Z.div_pos|apply Z.div_lt_upper_bound]; lia))
    as (_ & S1 & _).
  destruct (digit_char (y mod 10) (Z.mod_pos_bound y 10 ltac:(lia))) as (_ & S2 & _).
  unfold strip, format_mdY. rewrite list_ascii_of_string_of_list_ascii.
  match goal with
  | |- string_of_list_ascii (rev (lstrip (rev (lstrip ?L)))) = _ =>
      assert (E1 : lstrip L = L)
        by (apply lstrip_fix; right; do 2 eexists; split; [reflexivity|exact S1]);
      rewrite E1;
      assert (E2 : lstrip (rev L) = rev L)
        by (apply lstrip_fix; right; do 2 eexists; split; [reflexivity|exact S2]);
      rewrite E2, rev_involutive; reflexivity
  end.
Qed.

(** Every real date of years 1..9999, written zero-padded as
    [MM.DD.YYYY], is read back by [extract_info]'s date step as that
    date, at midnight UTC. *)
Theorem parse_published_format (y m d : Z) :
  1 <= y <= 9999 -> 1 <= m <= 12 -> 1 <= d <= days_in_month y m ->
  parse_published (format_mdY y m d) = Ok (mkdatetime y m d 0 0 0 (Some 0)).
Proof.
  intros Hy Hm Hd. pose proof (days_in_month_le_31 y m) as H31.
  unfold parse_published, strptime_mdY.
  rewrite strip_format by lia.
  pose proof (head_re_mdY_format y m d Hy Hm ltac:(lia)) as Hh.
  destruct (re_mdY (list_ascii_of_string (format_mdY y m d))) as [|x tl];
    [discriminate|].
  simpl in Hh. injection Hh as ->.
  destruct (pad4_digits y ltac:(lia)) as (_ & _ & _ & _ & Hyv).
  rewrite Hyv, !int_of_pad2 by lia.
  unfold mk_datetime.
  replace ((1 <=? y) && (y <=? 9999) && (1 <=? m) && (m <=? 12) && (1 <=? d)
           && (d <=? days_in_month y m)) with true
    by (symmetry; rewrite !andb_true_iff, !Z.leb_le; lia).
  reflexivity.
Qed.

Lemma parse_published_format_witness :
  1 <= 2024 <= 9999 /\ 1 <= 2 <= 12 /\ 1 <= 29 <= days_in_month 2024 2 /\
  parse_published (format_mdY 2024 2 29) = Ok (mkdatetime 2024 2 29 0 0 0 (Some 0)).
Proof.
  assert (H1 : 1 <= 2024 <= 9999) by lia.
  assert (H2 : 1 <= 2 <= 12) by lia.
  assert (H3 : 1 <= 29 <= days_in_month 2024 2) by (vm_compute; split; discriminate).
  split; [exact H1|]. split; [exact H2|]. split; [exact H3|].
  exact (parse_published_format 2024 2 29 H1 H2 H3).
Defined.

(** ** The clock and the order of failures *)

Lemma channel_author (g1 g2 : FeedGenerator) :
  channel g1 = channel g2 -> fg_author g1 = fg_author g2.
Proof. unfold channel. intro H. injection H. auto. Qed.

Lemma add_items_clocks (clock1 clock2 : nat -> datetime) (rows : list node) :
  forall g1 g2 k,
  channel g1 = channel g2 ->
  map entry_sans_updated (fg_entries g1) = map entry_sans_updated (fg_entries g2) ->
  match add_items clock1 g1 k rows, add_items clock2 g2 k rows with
  | Ok h1, Ok h2 =>
      channel h1 = channel h2 /\
      map entry_sans_updated (fg_entries h1) = map entry_sans_updated (fg_entries h2)
  | Err e1, Err e2 => e1 = e2
  | _, _ => False
  end.
Proof.
  induction rows as [|li rest IH]; intros g1 g2 k Hc He; simpl; [auto|].
  destruct (extract_info li) as [i|e]; simpl; [|reflexivity].
  apply IH; [exact Hc|].
  simpl. rewrite !map_app, He. simpl.
  unfold entry_sans_updated, make_entry. simpl.
  rewrite (channel_author g1 g2 Hc). reflexivity.
Qed.

(** The wall clock only reaches the [updated] time of the entries: two
    runs of [main]'s loop over the same rows with different clocks end
    the same way (the same exception, or feeds with the same feed-level
    data and the same entries up to [updated]). *)
Theorem add_items_clock_only_updated (clock1 clock2 : nat -> datetime) (rows : list node) :
  match add_items clock1 create_base_feed 0 rows, add_items clock2 create_base_feed 0 rows with
  | Ok h1, Ok h2 =>
      channel h1 = channel h2 /\
      map entry_sans_updated (fg_entries h1) = map entry_sans_updated (fg_entries h2)
  | Err e1, Err e2 => e1 = e2
  | _, _ => False
  end.
Proof. apply add_items_clocks; reflexivity. Qed.

(** The exception that ends [main]'s loop is the one of the first row
    that fails to extract: rows after it are never looked at. *)
Theorem add_items_first_failure (clock : nat -> datetime) (pre post : list node)
  (li : node) (e : exn) :
  Forall (fun x => exists i, extract_info x = Ok i) pre ->
  extract_info li = Err e ->
  forall fg k, add_items clock fg k (app pre (li :: post)) = Err e.
Proof.
  intros Hpre Hli.
  induction Hpre as [|x pre' [i Hx] _ IH]; intros fg k; simpl.
  - rewrite Hli. reflexivity.
  - rewrite Hx. simpl. apply IH.
Qed.

Lemma add_items_first_failure_witness :
  Forall (fun x => exists i, extract_info x = Ok i) [row_A] /\
  extract_info row_B = Err AttributeError /\
  add_items (fun _ => epoch) create_base_feed 0
    [row_A; row_B; episode_row "/e/6" "Empty" [] "01.02.2023" true]
  = Err AttributeError.
Proof.
  assert (H1 : Forall (fun x => exists i, extract_info x = Ok i) [row_A])
    by (constructor; [exists info_A; vm_compute; reflexivity|constructor]).
  assert (H2 : extract_info row_B = Err AttributeError) by (vm_compute; reflexivity).
  split; [exact H1|]. split; [exact H2|].
  exact (add_items_first_failure (fun _ => epoch) [row_A]
           [episode_row "/e/6" "Empty" [] "01.02.2023" true] row_B
           AttributeError H1 H2 create_base_feed 0).
Defined.
